(** * apo_wrapper: the Apollo CRM proxy, embedded in Rocq

    A shallow embedding of [apo_wrapper.py]: the typed requests, the
    helper [make_apollo_request], and the endpoints [check_status],
    [create_contact], [update_contact] and [n8n_webhook].

    The remote API is an oracle from outbound calls to what the HTTP client
    observes; every operation returns the list of outbound calls it issued
    together with either the payload it returns or the exception it raises.
    Logging is not modelled: it has no bearing on either. *)

From Stdlib Require Import ZArith List String Ascii Bool Lia PrimFloat.
Import ListNotations.
Open Scope string_scope.
Open Scope Z_scope.

Set Implicit Arguments.
Set Warnings "-register-all".

(** ** Python values that come from and go to JSON *)

Module Py.

(** The objects [json.loads] produces and FastAPI serialises. A [dict] keeps
    its keys in insertion order, so it is an association list; the
    operations below never create a second binding for a key. *)
Inductive value : Type :=
| None_
| Bool (b : bool)
| Int (n : Z)
| Float (f : float)
| Str (s : string)
| List_ (l : list value)
| Dict (d : list (string * value)).

(** [bool(v)]: the truth value Python's [if v] and [v or w] test. *)
Definition truthy (v : value) : bool :=
  match v with
  | None_ => false
  | Bool b => b
  | Int n => negb (n =? 0)
  | Float f => negb (PrimFloat.eqb f PrimFloat.zero)
  | Str s => negb (s =? "")%string
  | List_ l => match l with [] => false | _ :: _ => true end
  | Dict d => match d with [] => false | _ :: _ => true end
  end.

(** [type(v).__name__] *)
Definition type_name (v : value) : string :=
  match v with
  | None_ => "NoneType"
  | Bool _ => "bool"
  | Int _ => "int"
  | Float _ => "float"
  | Str _ => "str"
  | List_ _ => "list"
  | Dict _ => "dict"
  end.


Section Assoc.
Variable V : Type.

(** [d.get(k)] on the association list of a dict: [None] when absent. *)
Fixpoint lookup (k : string) (d : list (string * V)) : option V :=
  match d with
  | [] => None
  | (k', v) :: rest => if (k' =? k)%string then Some v else lookup k rest
  end.

(** [d[k] = v]: overwrite in place, or append a new key at the end. *)
Fixpoint setitem (k : string) (v : V) (d : list (string * V))
  : list (string * V) :=
  match d with
  | [] => [(k, v)]
  | (k', v') :: rest =>
      if (k' =? k)%string then (k', v) :: rest
      else (k', v') :: setitem k v rest
  end.

(** [list(d.keys())] *)
Definition keys (d : list (string * V)) : list string := map fst d.
End Assoc.

(** Optional strings of a request model: [if s:] holds for a non-empty
    string only. *)
Definition present (s : option string) : bool :=
  match s with
  | Some (String _ _) => true
  | _ => false
  end.

Definition of_opt (s : option string) : value :=
  match s with
  | Some x => Str x
  | None => None_
  end.

End Py.

Import Py.

(** ** Exceptions *)

(** An exception other than the two HTTP ones: its class and [str(e)]. *)
Record error : Type := Error { error_class : string; error_str : string }.

(** What the body of [make_apollo_request]'s [try] can raise. *)
Inductive client_exn : Type :=
| HTTPStatusError (status_code : Z) (text : string)
| ClientError (e : error).

(** What the endpoint functions can raise: FastAPI's [HTTPException], or
    any other [Exception]. *)
Inductive exn : Type :=
| HTTPException (status_code : Z) (detail : string)
| Exception (e : error).

(** ['T' object has no attribute 'get'] *)
Definition AttributeError_get (v : value) : error :=
  Error "AttributeError"
        ("'" ++ type_name v ++ "' object has no attribute 'get'").

(** [v.get(k, default)] for an arbitrary value [v]. *)
Definition get (v : value) (k : string) (default : value) : error + value :=
  match v with
  | Dict d => inr (match lookup k d with Some x => x | None => default end)
  | _ => inl (AttributeError_get v)
  end.

(** ** Outbound calls and the effect monad *)

(** One request handed to [httpx.AsyncClient]. *)
Record outbound_call : Type := Call {
  call_method : string;
  call_url : string;
  call_headers : list (string * string);
  call_json : option value;
  call_timeout : Z
}.

(** What the client hands back: [response.status_code], [response.text] and
    the outcome of [response.json()], which raises on a malformed body. *)
Record response : Type := Response {
  status_code : Z;
  text : string;
  json : error + value
}.

(** The remote side: it answers, or the transport fails (connection error,
    timeout, ...) with an exception. *)
Inductive remote_result : Type :=
| Answered (r : response)
| Failed (e : error).

(** A computation with exceptions of type [E]: the outbound calls issued,
    in order, and how it ended. *)
Definition M (E A : Type) : Type := list outbound_call * (E + A).

Definition ret {E A} (a : A) : M E A := ([], inr a).
Definition raise {E A} (e : E) : M E A := ([], inl e).

Definition bind {E A B} (c : M E A) (k : A -> M E B) : M E B :=
  match c with
  | (t, inl e) => (t, inl e)
  | (t, inr a) => let (t', r) := k a in ((t ++ t')%list, r)
  end.

(** [try: c  except E as e: h e] *)
Definition try_except {E E' A} (c : M E A) (h : E -> M E' A) : M E' A :=
  match c with
  | (t, inl e) => let (t', r) := h e in ((t ++ t')%list, r)
  | (t, inr a) => (t, inr a)
  end.

(** A pure step that may raise, with its exception injected into [E]. *)
Definition lift {E0 E A} (inj : E0 -> E) (r : E0 + A) : M E A :=
  match r with
  | inl e => raise (inj e)
  | inr a => ret a
  end.

Notation "x <- c ;; k" := (bind c (fun x => k))
  (at level 61, c at next level, right associativity).

Definition calls {E A} (c : M E A) : list outbound_call := fst c.
Definition outcome {E A} (c : M E A) : E + A := snd c.

(** ** [urllib.parse.quote] *)

Definition hex_digit (n : nat) : ascii :=
  nth n (list_ascii_of_string "0123456789ABCDEF") "0"%char.

(** Letters, digits and [_.-~] are never quoted; [/] is the default [safe]. *)
Definition unquoted (c : ascii) : bool :=
  let n := nat_of_ascii c in
  ((65 <=? n) && (n <=? 90) || (97 <=? n) && (n <=? 122)
   || (48 <=? n) && (n <=? 57))%nat
  || existsb (Ascii.eqb c) (list_ascii_of_string "_.-~/").

Fixpoint quote (s : string) : string :=
  match s with
  | EmptyString => EmptyString
  | String c rest =>
      if unquoted c then String c (quote rest)
      else
        let n := nat_of_ascii c in
        String "%" (String (hex_digit (n / 16))
                           (String (hex_digit (n mod 16)) (quote rest)))
  end.

(** [sep.join(parts)] *)
Fixpoint join (sep : string) (parts : list string) : string :=
  match parts with
  | [] => ""
  | [p] => p
  | p :: rest => p ++ sep ++ join sep rest
  end.

(** ** Request models *)

(** What pydantic accepts for a [str] field and for an [Optional[str]]
    field with a default, given the keyword arguments [d]; [None] when the
    field fails validation. Keys that name no field are ignored. *)
Definition required_str (k : string) (d : list (string * value))
  : option string :=
  match lookup k d with
  | Some (Str s) => Some s
  | _ => None
  end.

Definition optional_str (k : string) (default : option string)
           (d : list (string * value)) : option (option string) :=
  match lookup k d with
  | None => Some default
  | Some None_ => Some None
  | Some (Str s) => Some (Some s)
  | Some _ => None
  end.

(** The constructor of a model takes its own instance under the name
    [__pydantic_self__] and the fields as keyword arguments: arguments that
    hold a key of that name make the call itself raise a [TypeError], before
    any field is looked at. *)
Definition reserved (d : list (string * value)) : bool :=
  match lookup "__pydantic_self__" d with
  | Some _ => true
  | None => false
  end.

Module CreateContactRequest.
Record t : Type := Build {
  email : string;
  first_name : option string;
  last_name : option string;
  title : option string;
  company : option string;
  phone : option string
}.

Definition validate (d : list (string * value)) : option t :=
  if reserved d then None
  else
    match required_str "email" d,
          optional_str "first_name" (Some "") d,
          optional_str "last_name" (Some "") d,
          optional_str "title" (Some "") d,
          optional_str "company" (Some "") d,
          optional_str "phone" (Some "") d with
    | Some e, Some f, Some l, Some t, Some c, Some p =>
        Some (Build e f l t c p)
    | _, _, _, _, _, _ => None
    end.
End CreateContactRequest.

Module UpdateContactRequest.
Record t : Type := Build {
  contact_id : string;
  email : option string;
  title : option string;
  phone : option string;
  linkedin_url : option string
}.

Definition validate (d : list (string * value)) : option t :=
  if reserved d then None
  else
    match required_str "contact_id" d,
          optional_str "email" None d,
          optional_str "title" None d,
          optional_str "phone" None d,
          optional_str "linkedin_url" None d with
    | Some i, Some e, Some t, Some p, Some l => Some (Build i e t p l)
    | _, _, _, _, _ => None
    end.
End UpdateContactRequest.

(** ** The proxy *)

Definition BASE_URL : string := "https://api.apollo.io/api/v1".

Section Proxy.

(** The API key read from the environment at start-up. *)
Variable API_TOKEN : string.

(** The remote API as seen through the HTTP client. *)
Variable remote : outbound_call -> remote_result.

(** The text of the exception Python or pydantic raises when the model
    named first cannot be built from the given [params]. *)
Variable construction_error : string -> value -> error.

(** [await client.get/post/put(...)]; [inj] places a transport exception
    in the exception type of the caller. *)
Definition send {E} (inj : error -> E) (c : outbound_call) : M E response :=
  ([c], match remote c with
        | Answered r => inr r
        | Failed e => inl (inj e)
        end).

(** [response.raise_for_status()]: success is 200..299. *)
Definition raise_for_status (r : response) : M client_exn unit :=
  if (200 <=? status_code r) && (status_code r <=? 299) then ret tt
  else raise (HTTPStatusError (status_code r) (text r)).

(** The [key=value] pairs of the query string. *)
Fixpoint query_string_params (query_params : list (string * option string))
  : list string :=
  match query_params with
  | [] => []
  | (key, value) :: rest =>
      match value with
      | Some v =>
          if negb (v =? "")%string
          then (key ++ "=" ++ quote v) :: query_string_params rest
          else query_string_params rest
      | None => query_string_params rest
      end
  end.

Definition build_url (endpoint : string)
           (query_params : option (list (string * option string))) : string :=
  let url := BASE_URL ++ endpoint in
  match query_params with
  | Some ((_ :: _) as qp) =>
      match query_string_params qp with
      | [] => url
      | params => url ++ "?" ++ join "&" params
      end
  | _ => url
  end.

Definition request_headers : list (string * string) :=
  [("Content-Type", "application/json");
   ("Cache-Control", "no-cache");
   ("x-api-key", API_TOKEN)].

Definition make_apollo_request (method endpoint : string)
           (query_params : option (list (string * option string)))
           (body_data : option value) : M exn value :=
  let headers := request_headers in
  let url := build_url endpoint query_params in
  try_except
    (response <-
       (if (method =? "GET")%string then
          send ClientError (Call "GET" url headers None 30)
        else if (method =? "POST")%string then
          send ClientError (Call "POST" url headers body_data 30)
        else if (method =? "PUT")%string then
          send ClientError (Call "PUT" url headers body_data 30)
        else
          raise (ClientError
                   (Error "ValueError" ("Unsupported method: " ++ method))));;
     _ <- raise_for_status response;;
     lift ClientError (json response))
    (fun e =>
       match e with
       | HTTPStatusError st body =>
           raise (HTTPException st ("Apollo API error: " ++ body))
       | ClientError e => raise (HTTPException 500 (error_str e))
       end).

(** The body of [check_status]'s [try]. *)
Definition check_status_try : M error value :=
  response <-
    send (fun e => e)
         (Call "GET" (BASE_URL ++ "/auth/health")
               [("x-api-key", API_TOKEN)] None 10);;
  let apollo_status :=
    if status_code response =? 200 then "connected" else "error" in
  is_logged_in <-
    (if status_code response =? 200 then
       body <- lift (fun e => e) (json response);;
       lift (fun e => e) (get body "is_logged_in" (Bool false))
     else ret (Bool false));;
  ret (Dict [("apollo_status", Str apollo_status);
             ("status_code", Int (status_code response));
             ("is_logged_in", is_logged_in)]).

Definition check_status : M exn value :=
  try_except
    check_status_try
    (fun e =>
       ret (Dict [("apollo_status", Str "error");
                  ("error", Str (error_str e))])).

(** [except HTTPException as e: raise e] followed by
    [except Exception as e: raise HTTPException(500, str(e))]. *)
Definition reraise {A} (e : exn) : M exn A :=
  match e with
  | HTTPException st d => raise (HTTPException st d)
  | Exception e => raise (HTTPException 500 (error_str e))
  end.

(** The query parameters of a create, empty values removed. *)
Definition create_query_params (request : CreateContactRequest.t)
  : list (string * option string) :=
  let query_params :=
    [("email", Some (CreateContactRequest.email request));
     ("first_name", CreateContactRequest.first_name request);
     ("last_name", CreateContactRequest.last_name request);
     ("title", CreateContactRequest.title request);
     ("organization_name", CreateContactRequest.company request);
     ("direct_phone", CreateContactRequest.phone request)] in
  filter (fun kv => present (snd kv)) query_params.

(** "Format response for n8n": the part of [create_contact] after the
    call. *)
Definition format_created (data : value) : M exn value :=
  contact <- lift Exception (get data "contact" (Dict []));;
  contact_id <- lift Exception (get contact "id" None_);;
  name <- lift Exception (get contact "name" None_);;
  email <- lift Exception (get contact "email" None_);;
  title <- lift Exception (get contact "title" None_);;
  organization_name <-
    lift Exception (get contact "organization_name" None_);;
  company <-
    (if truthy organization_name then ret organization_name
     else
       account <- lift Exception (get contact "account" (Dict []));;
       lift Exception (get account "name" None_));;
  ret (Dict [("success", Bool true);
             ("contact_id", contact_id);
             ("name", name);
             ("email", email);
             ("title", title);
             ("company", company);
             ("raw_response", contact)]).

Definition create_contact (request : CreateContactRequest.t) : M exn value :=
  try_except
    (let query_params := create_query_params request in
     data <- make_apollo_request "POST" "/contacts" (Some query_params) None;;
     format_created data)
    reraise.

(** The outbound body of an update: the fields that are set, in the order
    the source tests them. *)
Definition update_body (request : UpdateContactRequest.t)
  : list (string * value) :=
  let body_data := [] in
  let body_data :=
    if present (UpdateContactRequest.email request)
    then setitem "email" (of_opt (UpdateContactRequest.email request))
                 body_data
    else body_data in
  let body_data :=
    if present (UpdateContactRequest.title request)
    then setitem "title" (of_opt (UpdateContactRequest.title request))
                 body_data
    else body_data in
  let body_data :=
    if present (UpdateContactRequest.phone request)
    then setitem "direct_phone" (of_opt (UpdateContactRequest.phone request))
                 body_data
    else body_data in
  let body_data :=
    if present (UpdateContactRequest.linkedin_url request)
    then setitem "linkedin_url"
                 (of_opt (UpdateContactRequest.linkedin_url request))
                 body_data
    else body_data in
  body_data.

(** The part of [update_contact] after the call. *)
Definition format_updated (body_data : list (string * value)) (data : value)
  : M exn value :=
  contact <- lift Exception (get data "contact" (Dict []));;
  contact_id <- lift Exception (get contact "id" None_);;
  ret (Dict [("success", Bool true);
             ("contact_id", contact_id);
             ("updated_fields", List_ (map Str (keys body_data)));
             ("raw_response", contact)]).

Definition update_contact (request : UpdateContactRequest.t) : M exn value :=
  try_except
    (let body_data := update_body request in
     _ <- (if negb (truthy (Dict body_data))
           then raise (HTTPException 400 "No fields to update")
           else ret tt);;
     let endpoint := "/contacts/" ++ UpdateContactRequest.contact_id request in
     data <- make_apollo_request "PUT" endpoint None (Some (Dict body_data));;
     format_updated body_data data)
    reraise.

(** A model built from keyword arguments unpacked out of [params], which
    must be a mapping, hold no reserved key, and then pass the model's
    validation. *)
Definition construct {T} (model : string)
           (validate : list (string * value) -> option T) (params : value)
  : M exn T :=
  match params with
  | Dict d =>
      match validate d with
      | Some r => ret r
      | None => raise (Exception (construction_error model params))
      end
  | _ => raise (Exception (construction_error model params))
  end.

(** [action == s] for a string literal [s]. *)
Definition is_str (action : value) (s : string) : bool :=
  match action with
  | Str a => (a =? s)%string
  | _ => false
  end.

Definition n8n_webhook (data : list (string * value)) : M exn value :=
  let action :=
    match lookup "action" data with Some a => a | None => None_ end in
  let params :=
    match lookup "params" data with Some p => p | None => Dict [] end in
  if is_str action "create_contact" then
    request <- construct "CreateContactRequest"
                         CreateContactRequest.validate params;;
    create_contact request
  else if is_str action "update_contact" then
    request <- construct "UpdateContactRequest"
                         UpdateContactRequest.validate params;;
    update_contact request
  else if is_str action "status" then
    check_status
  else
    ret (Dict [("error", Str "Unknown action");
               ("available", List_ [Str "create_contact";
                                    Str "update_contact";
                                    Str "status"])]).

End Proxy.

(** ** Vocabulary of the statements *)

(** The double quote, for the texts of remote bodies. *)
Definition dq : string := String (ascii_of_nat 34) EmptyString.


(** [payload[k]] of a returned dict. *)
Definition field (k : string) (payload : value) : option value :=
  match payload with
  | Dict d => lookup k d
  | _ => None
  end.

(** [d.get(k)] on the association list of a dict. *)
Definition get_or_none (k : string) (d : list (string * value)) : value :=
  match lookup k d with
  | Some v => v
  | None => None_
  end.

Definition is_success (st : Z) : bool := (200 <=? st) && (st <=? 299).

(** How [make_apollo_request] ends, given what the remote did. *)
Definition request_outcome (r : remote_result) : exn + value :=
  match r with
  | Failed e => inl (HTTPException 500 (error_str e))
  | Answered r =>
      if is_success (status_code r) then
        match json r with
        | inl e => inl (HTTPException 500 (error_str e))
        | inr v => inr v
        end
      else
        inl (HTTPException (status_code r) ("Apollo API error: " ++ text r))
  end.

(** The one call each operation issues. *)
Definition status_call (API_TOKEN : string) : outbound_call :=
  Call "GET" (BASE_URL ++ "/auth/health") [("x-api-key", API_TOKEN)] None 10.

Definition create_call (API_TOKEN : string) (request : CreateContactRequest.t)
  : outbound_call :=
  Call "POST" (build_url "/contacts" (Some (create_query_params request)))
       (request_headers API_TOKEN) None 30.

Definition update_call (API_TOKEN : string) (request : UpdateContactRequest.t)
  : outbound_call :=
  Call "PUT" (BASE_URL ++ "/contacts/" ++ UpdateContactRequest.contact_id request)
       (request_headers API_TOKEN) (Some (Dict (update_body request))) 30.

(** The two operations that go through [make_apollo_request]. *)
Inductive operation : Type :=
| Create (request : CreateContactRequest.t)
| Update (request : UpdateContactRequest.t).

Definition run (API_TOKEN : string) (remote : outbound_call -> remote_result)
           (op : operation) : M exn value :=
  match op with
  | Create request => create_contact API_TOKEN remote request
  | Update request => update_contact API_TOKEN remote request
  end.

(** The outbound call of an operation, if it gets that far. *)
Definition outbound (API_TOKEN : string) (op : operation)
  : option outbound_call :=
  match op with
  | Create request => Some (create_call API_TOKEN request)
  | Update request =>
      match update_body request with
      | [] => None
      | _ :: _ => Some (update_call API_TOKEN request)
      end
  end.

(** Empty strings of an update request replaced by absent fields. *)
Definition blank_to_none (s : option string) : option string :=
  match s with
  | Some EmptyString => None
  | _ => s
  end.

Definition drop_blanks (request : UpdateContactRequest.t)
  : UpdateContactRequest.t :=
  UpdateContactRequest.Build
    (UpdateContactRequest.contact_id request)
    (blank_to_none (UpdateContactRequest.email request))
    (blank_to_none (UpdateContactRequest.title request))
    (blank_to_none (UpdateContactRequest.phone request))
    (blank_to_none (UpdateContactRequest.linkedin_url request)).

(** The payload of the webhook's last branch. *)
Definition unknown_action : value :=
  Dict [("error", Str "Unknown action");
        ("available",
         List_ [Str "create_contact"; Str "update_contact"; Str "status"])].

(** The contact object a payload is formatted from:
    [data.get("contact", {})]. *)
Definition contact_of (d : list (string * value)) : value :=
  match lookup "contact" d with
  | Some c => c
  | None => Dict []
  end.

(** The company of a contact: its organization name when that is truthy,
    else the name of its account, which must be a dict when present. *)
Definition company_of (c : list (string * value)) : error + value :=
  if truthy (get_or_none "organization_name" c)
  then inr (get_or_none "organization_name" c)
  else
    match lookup "account" c with
    | None => inr None_
    | Some (Dict a) => inr (get_or_none "name" a)
    | Some v => inl (AttributeError_get v)
    end.



Definition created (c : list (string * value)) (company : value) : value :=
  Dict [("success", Bool true);
        ("contact_id", get_or_none "id" c);
        ("name", get_or_none "name" c);
        ("email", get_or_none "email" c);
        ("title", get_or_none "title" c);
        ("company", company);
        ("raw_response", Dict c)].

(** A computation that issues no call. *)
Definition silent {E A} (c : M E A) : Prop := calls c = [].

(** ** Worked requests *)

Definition quoted (s : string) : string := dq ++ s ++ dq.

(** A remote that gives the same answer to every call. *)
Definition answers (st : Z) (body : string) (js : value)
  : outbound_call -> remote_result :=
  fun _ => Answered (Response st body (inr js)).

Definition no_construction_error : string -> value -> error :=
  fun model _ => Error "ValidationError" model.

Definition jane : CreateContactRequest.t :=
  CreateContactRequest.Build "j@x.com" (Some "Jane") (Some "Doe")
                             (Some "") (Some "") (Some "").

Definition jane_contact : list (string * value) :=
  [("id", Str "123"); ("name", Str "Jane Doe"); ("email", Str "j@x.com")].

Definition jane_text : string :=
  "{" ++ quoted "contact" ++ ": {" ++ quoted "id" ++ ": " ++ quoted "123"
      ++ ", " ++ quoted "name" ++ ": " ++ quoted "Jane Doe"
      ++ ", " ++ quoted "email" ++ ": " ++ quoted "j@x.com" ++ "}}".

Definition jane_created : outbound_call -> remote_result :=
  answers 200 jane_text (Dict [("contact", Dict jane_contact)]).

Definition invalid_email_text : string :=
  "{" ++ quoted "error" ++ ": " ++ quoted "invalid email" ++ "}".

Definition invalid_email : outbound_call -> remote_result :=
  answers 422 invalid_email_text (Dict [("error", Str "invalid email")]).

Definition no_email : CreateContactRequest.t :=
  CreateContactRequest.Build "" (Some "") (Some "") (Some "")
                             (Some "") (Some "").

Definition phone_only : UpdateContactRequest.t :=
  UpdateContactRequest.Build "123" None None (Some "555-0100") None.

Definition updated : outbound_call -> remote_result :=
  answers 200 ("{" ++ quoted "contact" ++ ": {" ++ quoted "id" ++ ": "
                   ++ quoted "123" ++ "}}")
          (Dict [("contact", Dict [("id", Str "123")])]).





(** ** Vocabulary of the further properties *)

(** The value of a hexadecimal digit, to read an escape back. *)
Definition hex_value (c : ascii) : nat :=
  let n := nat_of_ascii c in
  if ((48 <=? n) && (n <=? 57))%nat then (n - 48)%nat else (n - 55)%nat.

(** The characters that separate the parts of a URL's query. *)
Definition query_delimiter (c : ascii) : bool :=
  existsb (Ascii.eqb c) (list_ascii_of_string "&=?#+ ").


(** The part of an operation after its call. *)
Definition formatted (op : operation) (data : value) : M exn value :=
  match op with
  | Create _ => format_created data
  | Update request => format_updated (update_body request) data
  end.

(** The outbound names of the fields an update request sets. *)
Definition sent_fields (request : UpdateContactRequest.t) : list string :=
  ((if present (UpdateContactRequest.email request) then ["email"] else [])
   ++ (if present (UpdateContactRequest.title request) then ["title"] else [])
   ++ (if present (UpdateContactRequest.phone request)
       then ["direct_phone"] else [])
   ++ (if present (UpdateContactRequest.linkedin_url request)
       then ["linkedin_url"] else []))%list.

(** [data.get("params", {})] *)
Definition params_of (data : list (string * value)) : value :=
  match lookup "params" data with
  | Some p => p
  | None => Dict []
  end.

(** Null optional fields of a create request replaced by empty strings. *)
Definition none_to_blank (s : option string) : option string :=
  match s with
  | None => Some ""
  | _ => s
  end.

Definition fill_blanks (request : CreateContactRequest.t)
  : CreateContactRequest.t :=
  CreateContactRequest.Build
    (CreateContactRequest.email request)
    (none_to_blank (CreateContactRequest.first_name request))
    (none_to_blank (CreateContactRequest.last_name request))
    (none_to_blank (CreateContactRequest.title request))
    (none_to_blank (CreateContactRequest.company request))
    (none_to_blank (CreateContactRequest.phone request)).

(** The field names of the two request models. *)
Definition create_fields : list string :=
  ["email"; "first_name"; "last_name"; "title"; "company"; "phone"].

Definition update_fields : list string :=
  ["contact_id"; "email"; "title"; "phone"; "linkedin_url"].


Definition garbled : outbound_call -> remote_result :=
  fun _ => Answered (Response 200 "<html>"
                              (inl (Error "JSONDecodeError"
                                          "Expecting value: line 1 column 1 (char 0)"))).



Definition created_204 : outbound_call -> remote_result :=
  fun _ => Answered (Response 204 ""
                              (inl (Error "JSONDecodeError"
                                          "Expecting value: line 1 column 1 (char 0)"))).

Definition logged_in : outbound_call -> remote_result :=
  answers 200 ("{" ++ quoted "is_logged_in" ++ ": true}")
          (Dict [("is_logged_in", Bool true)]).

(** The payload [check_status] returns when its [try] body raises. *)
Definition error_payload (e : error) : value :=
  Dict [("apollo_status", Str "error"); ("error", Str (error_str e))].

(** The payload of [check_status], given what the remote did. *)
Definition status_payload (res : remote_result) : value :=
  match res with
  | Failed e => error_payload e
  | Answered r =>
      if status_code r =? 200 then
        match json r with
        | inl e => error_payload e
        | inr (Dict d) =>
            Dict [("apollo_status", Str "connected");
                  ("status_code", Int (status_code r));
                  ("is_logged_in",
                   match lookup "is_logged_in" d with
                   | Some v => v
                   | None => Bool false
                   end)]
        | inr v => error_payload (AttributeError_get v)
        end
      else
        Dict [("apollo_status", Str "error");
              ("status_code", Int (status_code r));
              ("is_logged_in", Bool false)]
  end.

(** ** Strings that cannot be sent *)

(** A Python string is held as its UTF-8 bytes. A lone surrogate has no
    UTF-8 encoding; it is held as the three bytes [surrogatepass] writes for
    it: 0xED, a byte from 0xA0 to 0xBF, and a continuation byte. No encoding
    of anything else has 0xED followed by such a byte. *)
Fixpoint has_surrogate (s : string) : bool :=
  match s with
  | String a ((String b _) as rest) =>
      ((nat_of_ascii a =? 237) && (160 <=? nat_of_ascii b)
       && (nat_of_ascii b <=? 191))%nat
      || has_surrogate rest
  | _ => false
  end.

(** [quote] above is [urllib.parse.quote] on the strings that encode. On a
    string with a lone surrogate the library raises [UnicodeEncodeError]
    instead, and in [make_apollo_request] that happens while the URL is
    built, before the [try] and before any call. A create request is
    sendable when no value that reaches the query string is such a string;
    what is said of the call of a create is said of sendable requests. *)
Definition encodes (s : string) : bool := negb (has_surrogate s).

Definition sendable (request : CreateContactRequest.t) : bool :=
  forallb (fun kv : string * option string =>
             match snd kv with
             | Some v => encodes v
             | None => true
             end)
          (create_query_params request).

(** Keyword arguments of a create: an optional field is well given when it
    is absent, null or a string. *)
Definition optional_ok (d : list (string * value)) (k : string) : bool :=
  match lookup k d with
  | None | Some None_ | Some (Str _) => true
  | Some _ => false
  end.

Definition optional_field (k : string) (d : list (string * value))
  : option string :=
  match lookup k d with
  | None => Some ""
  | Some (Str s) => Some s
  | Some _ => None
  end.

(** The request that keyword arguments with an empty email stand for. *)
Definition empty_email_request (d : list (string * value))
  : CreateContactRequest.t :=
  CreateContactRequest.Build
    "" (optional_field "first_name" d) (optional_field "last_name" d)
    (optional_field "title" d) (optional_field "company" d)
    (optional_field "phone" d).

Definition jane_without_email : list (string * value) :=
  [("email", Str ""); ("first_name", Str "Jane"); ("title", None_)].

(** ** Lemmas on the helper *)




Section Helper.
Variable API_TOKEN : string.
Variable remote : outbound_call -> remote_result.

Lemma make_apollo_request_POST endpoint query_params body_data :
  make_apollo_request API_TOKEN remote "POST" endpoint query_params body_data
  = (let c := Call "POST" (build_url endpoint query_params)
                   (request_headers API_TOKEN) body_data 30 in
     ([c], request_outcome (remote c))).
Proof.
  unfold make_apollo_request, request_outcome, raise_for_status, is_success.
  cbn [String.eqb Ascii.eqb Bool.eqb].
  unfold send, bind, try_except, lift, raise, ret.
  destruct (remote _) as [r|e]; [|reflexivity].
  destruct ((200 <=? status_code r) && (status_code r <=? 299));
    [|reflexivity].
  destruct (json r); reflexivity.
Qed.

Lemma make_apollo_request_PUT endpoint query_params body_data :
  make_apollo_request API_TOKEN remote "PUT" endpoint query_params body_data
  = (let c := Call "PUT" (build_url endpoint query_params)
                   (request_headers API_TOKEN) body_data 30 in
     ([c], request_outcome (remote c))).
Proof.
  unfold make_apollo_request, request_outcome, raise_for_status, is_success.
  cbn [String.eqb Ascii.eqb Bool.eqb].
  unfold send, bind, try_except, lift, raise, ret.
  destruct (remote _) as [r|e]; [|reflexivity].
  destruct ((200 <=? status_code r) && (status_code r <=? 299));
    [|reflexivity].
  destruct (json r); reflexivity.
Qed.

End Helper.

(** ** Steps that issue no call *)

Lemma silent_ret {E A} (a : A) : silent (@ret E A a).
Proof. reflexivity. Qed.

Lemma silent_raise {E A} (e : E) : silent (@raise E A e).
Proof. reflexivity. Qed.

Lemma silent_lift {E0 E A} (inj : E0 -> E) (r : E0 + A) : silent (lift inj r).
Proof. destruct r; reflexivity. Qed.

Lemma silent_bind {E A B} (c : M E A) (k : A -> M E B) :
  silent c -> (forall a, silent (k a)) -> silent (bind c k).
Proof.
  unfold silent, calls, bind. intros Hc Hk.
  destruct c as [t [e|a]]; simpl in *; [assumption|].
  specialize (Hk a). destruct (k a) as [t' r]. simpl in *. now subst.
Qed.

Lemma silent_eq {E A} (c : M E A) : silent c -> c = ([], outcome c).
Proof. destruct c as [t r]. unfold silent. simpl. now intros ->. Qed.

Lemma silent_reraise {A} (e : exn) : silent (@reraise A e).
Proof. destruct e; reflexivity. Qed.

Ltac silent_steps :=
  repeat first
    [ apply silent_ret | apply silent_raise | apply silent_lift
    | apply silent_reraise
    | apply silent_bind; [|intro]
    | match goal with |- silent (if ?b then _ else _) => destruct b end ].

Lemma silent_format_created (data : value) : silent (format_created data).
Proof. unfold format_created. silent_steps. Qed.

Lemma silent_format_updated body_data (data : value) :
  silent (format_updated body_data data).
Proof. unfold format_updated. silent_steps. Qed.

(** A [try] around one call followed by silent steps, under the handler
    [reraise]. *)
Lemma call_then_format (c : outbound_call) (r : exn + value)
      (k : value -> M exn value) :
  (forall data, silent (k data)) ->
  try_except (data <- ([c], r);; k data) reraise
  = ([c], match r with
          | inl e => outcome (reraise (A:=value) e)
          | inr data =>
              match outcome (k data) with
              | inl e => outcome (reraise (A:=value) e)
              | inr v => inr v
              end
          end).
Proof.
  intros Hk. destruct r as [e|data]; unfold bind, try_except.
  - rewrite (silent_eq (silent_reraise (A:=value) e)). reflexivity.
  - rewrite (silent_eq (Hk data)). simpl.
    destruct (outcome (k data)) as [e|v]; [|reflexivity].
    rewrite (silent_eq (silent_reraise (A:=value) e)). reflexivity.
Qed.

(** ** Formatting the remote payload *)

Lemma format_created_dict (d : list (string * value)) :
  format_created (Dict d)
  = ([], match contact_of d with
         | Dict c =>
             match company_of c with
             | inl e => inl (Exception e)
             | inr company => inr (created c company)
             end
         | v => inl (Exception (AttributeError_get v))
         end).
Proof.
  unfold format_created, contact_of.
  cbn [get lift ret]. unfold bind at 1. cbn [ret app].
  destruct (match lookup "contact" d with Some x => x | None => Dict [] end)
    as [| | | | | |c]; try reflexivity.
  unfold company_of, created, get_or_none. cbn [get lift ret bind app].
  destruct (truthy _); [reflexivity|].
  cbn [get lift ret bind app].
  destruct (lookup "account" c) as [[| | | | | |a]|]; reflexivity.
Qed.

Lemma format_created_other (data : value) :
  (forall d, data <> Dict d) ->
  format_created data = ([], inl (Exception (AttributeError_get data))).
Proof.
  intros H. destruct data; try reflexivity. now destruct (H d).
Qed.

Lemma format_updated_dict body_data (d : list (string * value)) :
  format_updated body_data (Dict d)
  = ([], match contact_of d with
         | Dict c =>
             inr (Dict [("success", Bool true);
                        ("contact_id", get_or_none "id" c);
                        ("updated_fields", List_ (map Str (keys body_data)));
                        ("raw_response", Dict c)])
         | v => inl (Exception (AttributeError_get v))
         end).
Proof.
  unfold format_updated, contact_of.
  cbn [get lift ret]. unfold bind at 1. cbn [ret app].
  destruct (match lookup "contact" d with Some x => x | None => Dict [] end);
    reflexivity.
Qed.

Lemma format_updated_fields body_data (data payload : value) :
  outcome (format_updated body_data data) = inr payload ->
  field "updated_fields" payload = Some (List_ (map Str (keys body_data))).
Proof.
  destruct data; try discriminate.
  rewrite format_updated_dict. unfold outcome. cbn [snd].
  destruct (contact_of d); try discriminate.
  intros H. injection H as <-. reflexivity.
Qed.

(** ** The operations, call by call *)

Section Operations.
Variable API_TOKEN : string.
Variable remote : outbound_call -> remote_result.

Lemma create_contact_eq (request : CreateContactRequest.t) :
  create_contact API_TOKEN remote request
  = ([create_call API_TOKEN request],
     match request_outcome (remote (create_call API_TOKEN request)) with
     | inl e => outcome (reraise (A:=value) e)
     | inr data =>
         match outcome (format_created data) with
         | inl e => outcome (reraise (A:=value) e)
         | inr v => inr v
         end
     end).
Proof.
  unfold create_contact. cbv zeta. rewrite make_apollo_request_POST.
  cbv zeta. fold (create_call API_TOKEN request).
  apply call_then_format. exact silent_format_created.
Qed.

Lemma update_contact_rejects (request : UpdateContactRequest.t) :
  update_body request = [] ->
  update_contact API_TOKEN remote request
  = ([], inl (HTTPException 400 "No fields to update")).
Proof.
  intros H. unfold update_contact. cbv zeta. rewrite H. reflexivity.
Qed.

Lemma update_contact_eq (request : UpdateContactRequest.t) :
  update_body request <> [] ->
  update_contact API_TOKEN remote request
  = ([update_call API_TOKEN request],
     match request_outcome (remote (update_call API_TOKEN request)) with
     | inl e => outcome (reraise (A:=value) e)
     | inr data =>
         match outcome (format_updated (update_body request) data) with
         | inl e => outcome (reraise (A:=value) e)
         | inr v => inr v
         end
     end).
Proof.
  intros H. unfold update_contact. cbv zeta.
  destruct (update_body request) as [|kv body] eqn:E; [congruence|].
  cbn [truthy negb]. rewrite make_apollo_request_PUT. cbv zeta.
  unfold update_call. rewrite E.
  change (build_url ("/contacts/" ++ UpdateContactRequest.contact_id request)
                    None)
    with (BASE_URL ++ "/contacts/" ++ UpdateContactRequest.contact_id request).
  set (c := Call _ _ _ _ _).
  change (ret tt) with (([], inr tt) : M exn unit).
  unfold bind at 1. cbn [app].
  destruct (bind _ _) as [t r] eqn:Eb.
  rewrite <- Eb.
  apply call_then_format. intro. apply silent_format_updated.
Qed.

Lemma run_calls (op : operation) :
  calls (run API_TOKEN remote op)
  = match outbound API_TOKEN op with Some c => [c] | None => [] end.
Proof.
  destruct op as [request|request]; simpl.
  - rewrite create_contact_eq. reflexivity.
  - destruct (update_body request) as [|kv body] eqn:E.
    + rewrite update_contact_rejects by assumption. reflexivity.
    + rewrite update_contact_eq by congruence. reflexivity.
Qed.

End Operations.

(** ** Error handling *)


(** C4. An update request with none of email, title, phone and
    linkedin_url raises a 400 and issues no outbound call. *)
Theorem update_without_fields_rejected
        (API_TOKEN : string) (remote : outbound_call -> remote_result)
        (contact_id : string) :
  update_contact API_TOKEN remote
    (UpdateContactRequest.Build contact_id None None None None)
  = ([], inl (HTTPException 400 "No fields to update")).
Proof. apply update_contact_rejects. reflexivity. Qed.

(** C7. [check_status] always returns a payload after its one call to the
    health endpoint: the payload of its [try] body when that completes, and
    the ["error"] payload carrying the exception's text when the body
    raises, whether in transport, in decoding the body or in reading it. *)
Theorem check_status_never_raises
        (API_TOKEN : string) (remote : outbound_call -> remote_result) :
  exists payload,
    check_status API_TOKEN remote = ([status_call API_TOKEN], inr payload)
    /\ (field "apollo_status" payload = Some (Str "connected")
        \/ field "apollo_status" payload = Some (Str "error"))
    /\ match outcome (check_status_try API_TOKEN remote) with
       | inl e => payload = Dict [("apollo_status", Str "error");
                                  ("error", Str (error_str e))]
       | inr v => payload = v
       end.
Proof.
  unfold check_status, check_status_try, send. fold (status_call API_TOKEN).
  unfold bind, try_except, lift, ret, raise, outcome.
  destruct (remote (status_call API_TOKEN)) as [r|e]; cbn [snd].
  - destruct (status_code r =? 200) eqn:E200.
    + destruct (json r) as [e|body]; cbn [snd app].
      * eexists. split; [reflexivity|]. split; [right|]; reflexivity.
      * destruct body; cbn [get snd app];
          (eexists; split; [reflexivity|]; split;
           [first [left; reflexivity | right; reflexivity]|reflexivity]).
    + cbn [snd app]. eexists. split; [reflexivity|].
      split; [right|]; reflexivity.
  - eexists. split; [reflexivity|]. split; [right|]; reflexivity.
Qed.

(** C8. A webhook request whose action is missing or is none of
    [create_contact], [update_contact], [status] is answered with the
    "Unknown action" payload listing the three actions; nothing is raised
    and no outbound call is issued. *)
Theorem unknown_action_payload
        (API_TOKEN : string) (remote : outbound_call -> remote_result)
        (construction_error : string -> value -> error)
        (data : list (string * value)) :
  lookup "action" data <> Some (Str "create_contact") ->
  lookup "action" data <> Some (Str "update_contact") ->
  lookup "action" data <> Some (Str "status") ->
  n8n_webhook API_TOKEN remote construction_error data
  = ([], inr (Dict [("error", Str "Unknown action");
                    ("available", List_ [Str "create_contact";
                                         Str "update_contact";
                                         Str "status"])])).
Proof.
  intros H1 H2 H3. unfold n8n_webhook. cbv zeta.
  destruct (lookup "action" data) as [action|]; [|reflexivity].
  destruct action; try reflexivity.
  unfold is_str.
  destruct (String.eqb_spec s "create_contact") as [->|_]; [congruence|].
  destruct (String.eqb_spec s "update_contact") as [->|_]; [congruence|].
  destruct (String.eqb_spec s "status") as [->|_]; [congruence|].
  reflexivity.
Qed.

(** ** What a create returns *)



(** C5, as the code has it. Whenever a create returns a payload, the remote
    answered with a JSON object, and raw_response is the value that object
    holds under ["contact"], unmodified and with all its fields, or an empty
    mapping when the object has no such key. *)
Theorem create_raw_response_is_contact
        (API_TOKEN : string) (remote : outbound_call -> remote_result)
        (request : CreateContactRequest.t) (payload : value) :
  outcome (create_contact API_TOKEN remote request) = inr payload ->
  exists r d,
    remote (create_call API_TOKEN request) = Answered r
    /\ json r = inr (Dict d)
    /\ field "raw_response" payload
       = Some (match lookup "contact" d with
               | Some contact => contact
               | None => Dict []
               end).
Proof.
  rewrite create_contact_eq. unfold outcome at 1. cbn [snd].
  destruct (remote (create_call API_TOKEN request)) as [r|e];
    [|discriminate].
  unfold request_outcome.
  destruct (is_success (status_code r)); [|discriminate].
  destruct (json r) as [e|data] eqn:Ejs; [discriminate|].
  destruct data as [| | | | | |d]; try discriminate.
  rewrite format_created_dict. unfold outcome. cbn [snd].
  fold (contact_of d).
  destruct (contact_of d) as [| | | | | |c] eqn:Ec; try discriminate.
  destruct (company_of c) as [e|company]; [discriminate|].
  intros H. injection H as <-.
  exists r, d. split; [reflexivity|]. split; [exact Ejs|].
  fold (contact_of d). rewrite Ec. reflexivity.
Qed.

(** ** What an update sends and reports *)

Lemma reraise_raises {A} (e : exn) (a : A) : outcome (reraise e) <> inr a.
Proof. destruct e; discriminate. Qed.

Lemma update_body_only_phone (request : UpdateContactRequest.t) (p : string) :
  present (UpdateContactRequest.email request) = false ->
  present (UpdateContactRequest.title request) = false ->
  present (UpdateContactRequest.linkedin_url request) = false ->
  UpdateContactRequest.phone request = Some p ->
  p <> "" ->
  update_body request = [("direct_phone", Str p)].
Proof.
  intros He Ht Hl Hp Hne. unfold update_body.
  rewrite He, Ht, Hl, Hp.
  destruct p as [|a p]; [congruence|]. reflexivity.
Qed.

Lemma update_body_drop_blanks (request : UpdateContactRequest.t) :
  update_body (drop_blanks request) = update_body request.
Proof.
  destruct request as [i e t p l]. unfold update_body, drop_blanks.
  cbn [UpdateContactRequest.email UpdateContactRequest.title
       UpdateContactRequest.phone UpdateContactRequest.linkedin_url].
  destruct e as [[|? ?]|], t as [[|? ?]|], p as [[|? ?]|], l as [[|? ?]|];
    reflexivity.
Qed.

Lemma update_body_truthy (request : UpdateContactRequest.t) :
  forallb (fun kv => truthy (snd kv)) (update_body request) = true.
Proof.
  destruct request as [i e t p l]. unfold update_body.
  cbn [UpdateContactRequest.email UpdateContactRequest.title
       UpdateContactRequest.phone UpdateContactRequest.linkedin_url].
  destruct e as [[|? ?]|], t as [[|? ?]|], p as [[|? ?]|], l as [[|? ?]|];
    reflexivity.
Qed.

(** C1, as the code has it. For an update request in which phone is the
    only optional field that is set to a non-empty string, the outbound
    body holds the phone under ["direct_phone"] alone, and every success
    response lists exactly that outbound name, [["direct_phone"]], as its
    updated_fields. *)
Theorem update_phone_reports_direct_phone
        (API_TOKEN : string) (remote : outbound_call -> remote_result)
        (request : UpdateContactRequest.t) (p : string) (payload : value) :
  present (UpdateContactRequest.email request) = false ->
  present (UpdateContactRequest.title request) = false ->
  present (UpdateContactRequest.linkedin_url request) = false ->
  UpdateContactRequest.phone request = Some p ->
  p <> "" ->
  outcome (update_contact API_TOKEN remote request) = inr payload ->
  calls (update_contact API_TOKEN remote request)
  = [update_call API_TOKEN request]
  /\ call_json (update_call API_TOKEN request)
     = Some (Dict [("direct_phone", Str p)])
  /\ field "updated_fields" payload = Some (List_ [Str "direct_phone"]).
Proof.
  intros He Ht Hl Hp Hne.
  pose proof (update_body_only_phone request He Ht Hl Hp Hne) as Hb.
  assert (Hnil : update_body request <> []) by (rewrite Hb; discriminate).
  rewrite update_contact_eq by exact Hnil.
  unfold outcome at 1, calls. cbn [fst snd]. intros Hout.
  split; [reflexivity|]. split.
  - unfold update_call. cbn [call_json]. now rewrite Hb.
  - destruct (request_outcome _) as [e|data].
    + now apply reraise_raises in Hout.
    + destruct (outcome (format_updated _ data)) as [e|v] eqn:F.
      * now apply reraise_raises in Hout.
      * injection Hout as <-. apply format_updated_fields in F.
        rewrite Hb in F. exact F.
Qed.

(** C9. An update treats an optional field given as the empty string as it
    treats an absent one: nothing that is put in the outbound body is empty,
    replacing every empty string of a request by an absent field changes
    neither the body nor anything else the update does, and a request whose
    four optional fields are all empty strings is rejected with a 400 and
    no outbound call, as the request with all four absent is. *)
Theorem update_blank_fields_as_absent
        (API_TOKEN : string) (remote : outbound_call -> remote_result)
        (request : UpdateContactRequest.t) :
  forallb (fun kv => truthy (snd kv)) (update_body request) = true
  /\ update_body request = update_body (drop_blanks request)
  /\ update_contact API_TOKEN remote request
     = update_contact API_TOKEN remote (drop_blanks request)
  /\ update_contact API_TOKEN remote
       (UpdateContactRequest.Build (UpdateContactRequest.contact_id request)
                                   (Some "") (Some "") (Some "") (Some ""))
     = ([], inl (HTTPException 400 "No fields to update"))
  /\ update_contact API_TOKEN remote
       (UpdateContactRequest.Build (UpdateContactRequest.contact_id request)
                                   (Some "") (Some "") (Some "") (Some ""))
     = update_contact API_TOKEN remote
         (UpdateContactRequest.Build (UpdateContactRequest.contact_id request)
                                     None None None None).
Proof.
  split; [apply update_body_truthy|].
  split; [symmetry; apply update_body_drop_blanks|].
  split.
  - unfold update_contact. cbv zeta.
    rewrite update_body_drop_blanks. reflexivity.
  - split.
    + apply update_contact_rejects. reflexivity.
    + rewrite !update_contact_rejects by reflexivity. reflexivity.
Qed.

(** ** What the schema lets through *)

Lemma optional_str_ok (k : string) (d : list (string * value)) :
  optional_ok d k = true ->
  optional_str k (Some "") d = Some (optional_field k d).
Proof.
  unfold optional_ok, optional_str, optional_field.
  destruct (lookup k d) as [[]|]; (reflexivity || discriminate).
Qed.

Lemma empty_email_query (request : CreateContactRequest.t) :
  CreateContactRequest.email request = "" ->
  lookup "email" (create_query_params request) = None.
Proof.
  destruct request as [e f l t c p]. cbn. intros ->.
  unfold create_query_params.
  cbn [CreateContactRequest.email CreateContactRequest.first_name
       CreateContactRequest.last_name CreateContactRequest.title
       CreateContactRequest.company CreateContactRequest.phone
       filter snd present].
  destruct (present f), (present l), (present t), (present c), (present p);
    reflexivity.
Qed.

(** C2, as the code has it. The schema asks for an email that is a string,
    not for a non-empty one: keyword arguments whose email is the empty
    string, whose optional fields are each absent, null or a string, and
    that hold no reserved key are accepted and build a request with an empty
    email. For that request, provided none of its non-empty fields holds a
    lone surrogate, [create_contact] issues its one outbound call, a POST,
    with the email left out of the query parameters. *)
Theorem create_with_empty_email_calls_remote
        (API_TOKEN : string) (remote : outbound_call -> remote_result)
        (d : list (string * value)) :
  reserved d = false ->
  lookup "email" d = Some (Str "") ->
  forallb (optional_ok d)
          ["first_name"; "last_name"; "title"; "company"; "phone"] = true ->
  sendable (empty_email_request d) = true ->
  CreateContactRequest.validate d = Some (empty_email_request d)
  /\ CreateContactRequest.email (empty_email_request d) = ""
  /\ calls (create_contact API_TOKEN remote (empty_email_request d))
     = [create_call API_TOKEN (empty_email_request d)]
  /\ call_method (create_call API_TOKEN (empty_email_request d)) = "POST"
  /\ lookup "email" (create_query_params (empty_email_request d)) = None.
Proof.
  intros Hres Hemail Hopt _. cbn [forallb] in Hopt.
  repeat (apply andb_prop in Hopt; destruct Hopt as [? Hopt]).
  split.
  - unfold CreateContactRequest.validate, required_str.
    rewrite Hres, Hemail, !optional_str_ok by assumption. reflexivity.
  - split; [reflexivity|]. split; [|split; [reflexivity|]].
    + rewrite create_contact_eq. reflexivity.
    + now apply empty_email_query.
Qed.

(** ** Worked requests, checked *)


(** [{"action": "frobnicate"}] gets the "Unknown action" payload. *)
Lemma frobnicate_is_unknown :
  n8n_webhook "key" jane_created no_construction_error
              [("action", Str "frobnicate")]
  = ([], inr unknown_action).
Proof.
  apply (@unknown_action_payload "key" jane_created no_construction_error
           [("action", Str "frobnicate")]); discriminate.
Defined.



(** The raw_response of Jane's create is the contact object of the remote
    payload. *)
Lemma jane_raw_response :
  exists r d,
    jane_created (create_call "key" jane) = Answered r
    /\ json r = inr (Dict d)
    /\ field "raw_response" (created jane_contact None_)
       = Some (match lookup "contact" d with
               | Some contact => contact
               | None => Dict []
               end).
Proof.
  exact (@create_raw_response_is_contact
           "key" jane_created jane (created jane_contact None_) eq_refl).
Defined.

(** An update of the phone alone sends and reports ["direct_phone"]. *)
Lemma phone_only_reports_direct_phone :
  calls (update_contact "key" updated phone_only)
  = [update_call "key" phone_only]
  /\ call_json (update_call "key" phone_only)
     = Some (Dict [("direct_phone", Str "555-0100")])
  /\ field "updated_fields"
           (Dict [("success", Bool true);
                  ("contact_id", Str "123");
                  ("updated_fields", List_ [Str "direct_phone"]);
                  ("raw_response", Dict [("id", Str "123")])])
     = Some (List_ [Str "direct_phone"]).
Proof.
  apply (@update_phone_reports_direct_phone
           "key" updated phone_only "555-0100"
           (Dict [("success", Bool true);
                  ("contact_id", Str "123");
                  ("updated_fields", List_ [Str "direct_phone"]);
                  ("raw_response", Dict [("id", Str "123")])]));
    try reflexivity.
  discriminate.
Defined.

(** Jane without an email is accepted and still goes out. *)
Lemma no_email_is_sent :
  CreateContactRequest.validate jane_without_email
  = Some (CreateContactRequest.Build "" (Some "Jane") (Some "") None
                                     (Some "") (Some ""))
  /\ CreateContactRequest.email (empty_email_request jane_without_email) = ""
  /\ calls (create_contact "key" jane_created
                           (empty_email_request jane_without_email))
     = [Call "POST" "https://api.apollo.io/api/v1/contacts?first_name=Jane"
             (request_headers "key") None 30]
  /\ call_method (create_call "key" (empty_email_request jane_without_email))
     = "POST"
  /\ lookup "email"
            (create_query_params (empty_email_request jane_without_email))
     = None.
Proof.
  apply (@create_with_empty_email_calls_remote
           "key" jane_created jane_without_email);
    reflexivity.
Defined.

(** ** Where the specification and the code part *)

(** C1 as stated fails: the update of the phone alone succeeds and reports
    [["direct_phone"]], not [["phone"]]. *)
Lemma phone_only_not_reported_as_phone :
  exists payload,
    update_contact "key" updated phone_only
    = ([update_call "key" phone_only], inr payload)
    /\ field "updated_fields" payload = Some (List_ [Str "direct_phone"])
    /\ field "updated_fields" payload <> Some (List_ [Str "phone"]).
Proof.
  eexists. split; [reflexivity|]. split; [reflexivity|]. discriminate.
Qed.

(** C2 as stated fails: the request with an empty email passes the schema,
    is not rejected, and an outbound call is issued for it. *)
Lemma empty_email_not_rejected :
  CreateContactRequest.email no_email = ""
  /\ CreateContactRequest.validate [("email", Str "")] = Some no_email
  /\ calls (create_contact "key" jane_created no_email) <> []
  /\ exists payload,
      outcome (create_contact "key" jane_created no_email) = inr payload.
Proof.
  split; [reflexivity|]. split; [reflexivity|]. split; [discriminate|].
  eexists. reflexivity.
Qed.

(** C5 as stated fails: the raw_response of Jane's create is her contact
    object, which is not the mapping the remote returned. *)
Lemma raw_response_not_remote_payload :
  exists payload,
    jane_created (create_call "key" jane)
    = Answered (Response 200 jane_text
                         (inr (Dict [("contact", Dict jane_contact)])))
    /\ create_contact "key" jane_created jane
       = ([create_call "key" jane], inr payload)
    /\ field "raw_response" payload = Some (Dict jane_contact)
    /\ field "raw_response" payload
       <> Some (Dict [("contact", Dict jane_contact)]).
Proof.
  eexists. split; [reflexivity|]. split; [reflexivity|].
  split; [reflexivity|]. discriminate.
Qed.


(** ** Quoting of query values *)

Lemma hex_round_trip (c : ascii) :
  ascii_of_nat (16 * hex_value (hex_digit (nat_of_ascii c / 16))
                + hex_value (hex_digit (nat_of_ascii c mod 16))) = c.
Proof.
  destruct c as [[] [] [] [] [] [] [] []]; vm_compute; reflexivity.
Qed.

Lemma hex_digit_unquoted (c : ascii) :
  unquoted (hex_digit (nat_of_ascii c / 16)) = true
  /\ unquoted (hex_digit (nat_of_ascii c mod 16)) = true.
Proof.
  destruct c as [[] [] [] [] [] [] [] []]; vm_compute; split; reflexivity.
Qed.

Lemma percent_is_quoted : unquoted "%" = false.
Proof. reflexivity. Qed.

Lemma delimiter_is_quoted (c : ascii) :
  query_delimiter c = true -> unquoted c = false /\ c <> "%"%char.
Proof.
  unfold query_delimiter. cbn [list_ascii_of_string existsb].
  intros H. repeat (apply orb_prop in H; destruct H as [H|H]);
    try discriminate;
    apply Ascii.eqb_eq in H; subst c; split; (reflexivity || discriminate).
Qed.

Lemma quote_output_is_url_safe (s : string) :
  forallb (fun c => unquoted c || (c =? "%")%char)
          (list_ascii_of_string (quote s)) = true
  /\ forallb (fun c => negb (query_delimiter c))
             (list_ascii_of_string (quote s)) = true.
Proof.
  induction s as [|c s [IH1 IH2]]; [split; reflexivity|].
  cbn [quote]. destruct (unquoted c) eqn:U.
  - cbn [list_ascii_of_string forallb]. rewrite U, IH1, IH2. split.
    + reflexivity.
    + rewrite andb_true_r. destruct (query_delimiter c) eqn:Q; [|reflexivity].
      apply delimiter_is_quoted in Q. destruct Q as [Q _]. congruence.
  - destruct (hex_digit_unquoted c) as [H1 H2].
    cbn [list_ascii_of_string forallb]. rewrite H1, H2, IH1, IH2. split.
    + reflexivity.
    + rewrite andb_true_r.
      destruct (query_delimiter (hex_digit (nat_of_ascii c / 16))) eqn:Q1;
        [apply delimiter_is_quoted in Q1; destruct Q1; congruence|].
      destruct (query_delimiter (hex_digit (nat_of_ascii c mod 16))) eqn:Q2;
        [apply delimiter_is_quoted in Q2; destruct Q2; congruence|].
      reflexivity.
Qed.

(** X1. Every pair the helper puts in a query string comes from a
    parameter with a non-empty value and reads [key=quoted value], where the
    quoted value holds none of the characters that delimit a query: no
    ampersand, equals sign, question mark, hash, plus or space. A value
    cannot add a parameter of its own. *)
Theorem query_values_cannot_inject
        (qp : list (string * option string)) (p : string) :
  In p (query_string_params qp) ->
  exists key v,
    In (key, Some v) qp
    /\ v <> ""
    /\ p = key ++ "=" ++ quote v
    /\ forallb (fun c => negb (query_delimiter c))
               (list_ascii_of_string (quote v)) = true.
Proof.
  induction qp as [|[k o] qp IH]; cbn [query_string_params]; [intros []|].
  assert (Hrest : In p (query_string_params qp) ->
                  exists key v,
                    In (key, Some v) ((k, o) :: qp)
                    /\ v <> ""
                    /\ p = key ++ "=" ++ quote v
                    /\ forallb (fun c => negb (query_delimiter c))
                               (list_ascii_of_string (quote v)) = true).
  { intros H. destruct (IH H) as [key [v [Hin Hv]]].
    exists key, v. split; [now right|exact Hv]. }
  destruct o as [v|]; [|exact Hrest].
  destruct (String.eqb_spec v "") as [->|Hne]; cbn [negb]; [exact Hrest|].
  intros [<-|H]; [|now apply Hrest].
  exists k, v. split; [now left|]. split; [exact Hne|].
  split; [reflexivity|]. apply quote_output_is_url_safe.
Qed.

Lemma ampersand_cannot_inject :
  In "email=a%26b%3Dc" (query_string_params [("email", Some "a&b=c")])
  /\ exists key v,
      In (key, Some v) [("email", Some "a&b=c")]
      /\ v <> ""
      /\ "email=a%26b%3Dc" = key ++ "=" ++ quote v
      /\ forallb (fun c => negb (query_delimiter c))
                 (list_ascii_of_string (quote v)) = true.
Proof.
  assert (H : In "email=a%26b%3Dc"
                 (query_string_params [("email", Some "a&b=c")]))
    by (left; reflexivity).
  split; [exact H|].
  exact (@query_values_cannot_inject
           [("email", Some "a&b=c")] "email=a%26b%3Dc" H).
Defined.

Lemma quote_cons (c : ascii) (s : string) :
  quote (String c s)
  = if unquoted c then String c (quote s)
    else String "%" (String (hex_digit (nat_of_ascii c / 16))
                            (String (hex_digit (nat_of_ascii c mod 16))
                                    (quote s))).
Proof. reflexivity. Qed.

Lemma quote_inj (s t : string) : quote s = quote t -> s = t.
Proof.
  revert t. induction s as [|c s IH]; intros [|d t]; rewrite ?quote_cons.
  - reflexivity.
  - destruct (unquoted d); discriminate.
  - destruct (unquoted c); discriminate.
  - destruct (unquoted c) eqn:Uc; destruct (unquoted d) eqn:Ud; intros H.
    + injection H as -> H. f_equal. now apply IH.
    + injection H as -> _. rewrite percent_is_quoted in Uc. discriminate.
    + injection H as <- _. rewrite percent_is_quoted in Ud. discriminate.
    + assert (H1 : hex_digit (nat_of_ascii c / 16)
                   = hex_digit (nat_of_ascii d / 16))
        by (injection H; intros; assumption).
      assert (H2 : hex_digit (nat_of_ascii c mod 16)
                   = hex_digit (nat_of_ascii d mod 16))
        by (injection H; intros; assumption).
      assert (Hq : quote s = quote t) by (injection H; intros; assumption).
      rewrite <- (hex_round_trip c), H1, H2, (hex_round_trip d).
      f_equal. now apply IH.
Qed.

(** X2. Quoting loses nothing: two different values never have the same
    quoted form. *)
Theorem quote_separates (s t : string) : s <> t -> quote s <> quote t.
Proof. intros H E. apply H. now apply quote_inj. Qed.

(** A value and its own quoted form are quoted differently. *)
Lemma quote_separates_escaped :
  "a b" <> "a%20b" /\ quote "a b" <> quote "a%20b".
Proof.
  split; [discriminate|].
  apply (@quote_separates "a b" "a%20b"). discriminate.
Defined.

(** ** The URL of a request *)

Lemma query_string_params_none (qp : list (string * option string)) :
  forallb (fun kv => negb (present (snd kv))) qp = true ->
  query_string_params qp = [].
Proof.
  induction qp as [|[k v] qp IH]; [reflexivity|].
  cbn [forallb snd query_string_params]. intros H.
  apply andb_prop in H. destruct H as [Hv Hqp].
  destruct v as [[|a v]|]; try discriminate; now apply IH.
Qed.



(** X3. When the query parameters handed to the helper hold no non-empty
    value, or there are none, the URL is the base URL followed by the
    endpoint, without a question mark. *)
Theorem build_url_without_values
        (endpoint : string) (qp : list (string * option string)) :
  forallb (fun kv => negb (present (snd kv))) qp = true ->
  build_url endpoint (Some qp) = BASE_URL ++ endpoint.
Proof.
  intros H. unfold build_url.
  destruct qp as [|kv qp]; [reflexivity|].
  rewrite query_string_params_none by assumption. reflexivity.
Qed.

Lemma build_url_blank_values :
  forallb (fun kv => negb (present (snd kv)))
          [("email", Some ""); ("title", None)] = true
  /\ build_url "/contacts" (Some [("email", Some ""); ("title", None)])
     = "https://api.apollo.io/api/v1/contacts".
Proof.
  split; [reflexivity|].
  apply (@build_url_without_values
           "/contacts" [("email", Some ""); ("title", None)]).
  reflexivity.
Defined.




(** X5. An update with something to send issues exactly one call,
    whatever the remote does: a PUT with the three fixed headers and a
    timeout of 30, to the contacts URL followed by a slash and the contact
    id as given, unquoted and without a query string, with the fields to
    send as JSON body. *)
Theorem update_issues_one_put
        (API_TOKEN : string) (remote : outbound_call -> remote_result)
        (request : UpdateContactRequest.t) :
  update_body request <> [] ->
  calls (update_contact API_TOKEN remote request)
  = [Call "PUT"
          (BASE_URL ++ "/contacts/" ++ UpdateContactRequest.contact_id request)
          [("Content-Type", "application/json");
           ("Cache-Control", "no-cache");
           ("x-api-key", API_TOKEN)]
          (Some (Dict (update_body request))) 30].
Proof.
  intros H. rewrite update_contact_eq by assumption. reflexivity.
Qed.

Lemma phone_only_issues_one_put :
  update_body phone_only <> []
  /\ calls (update_contact "key" updated phone_only)
     = [Call "PUT" "https://api.apollo.io/api/v1/contacts/123"
             [("Content-Type", "application/json");
              ("Cache-Control", "no-cache");
              ("x-api-key", "key")]
             (Some (Dict [("direct_phone", Str "555-0100")])) 30].
Proof.
  assert (H : update_body phone_only <> []) by discriminate.
  split; [exact H|].
  exact (@update_issues_one_put "key" updated phone_only H).
Defined.

(** ** How a create or an update can end *)

Lemma silent_formatted (op : operation) (data : value) :
  silent (formatted op data).
Proof.
  destruct op; [apply silent_format_created | apply silent_format_updated].
Qed.

Lemma run_eq (API_TOKEN : string) (remote : outbound_call -> remote_result)
      (op : operation) (c : outbound_call) :
  outbound API_TOKEN op = Some c ->
  run API_TOKEN remote op
  = ([c], match request_outcome (remote c) with
          | inl e => outcome (reraise (A:=value) e)
          | inr data =>
              match outcome (formatted op data) with
              | inl e => outcome (reraise (A:=value) e)
              | inr v => inr v
              end
          end).
Proof.
  destruct op as [request|request]; cbn [outbound run formatted].
  - intros H. injection H as <-. apply create_contact_eq.
  - destruct (update_body request) as [|kv body] eqn:E; [discriminate|].
    intros H. injection H as <-.
    rewrite update_contact_eq by congruence. rewrite E. reflexivity.
Qed.

Lemma run_rejected (API_TOKEN : string)
      (remote : outbound_call -> remote_result) (op : operation) :
  outbound API_TOKEN op = None ->
  run API_TOKEN remote op = ([], inl (HTTPException 400 "No fields to update")).
Proof.
  destruct op as [request|request]; cbn [outbound run]; [discriminate|].
  destruct (update_body request) eqn:E; [|discriminate].
  intros _. now apply update_contact_rejects.
Qed.



Lemma formatted_success (op : operation) (data payload : value) :
  outcome (formatted op data) = inr payload ->
  (exists d, data = Dict d) /\ field "success" payload = Some (Bool true).
Proof.
  destruct data as [| | | | | |d]; try (destruct op; discriminate).
  intros H. split; [now exists d|].
  destruct op; cbn [formatted] in H.
  - rewrite format_created_dict in H. unfold outcome in H. cbn [snd] in H.
    destruct (contact_of d); try discriminate.
    destruct (company_of d0); [discriminate|].
    injection H as <-. reflexivity.
  - rewrite format_updated_dict in H. unfold outcome in H. cbn [snd] in H.
    destruct (contact_of d); try discriminate.
    injection H as <-. reflexivity.
Qed.









(** X10. A create or an update raises nothing but an [HTTPException], and
    its status is 400 (an update with nothing to send, before any call),
    the status of a remote answer outside 200..299, or 500. *)
Theorem operations_raise_http_exceptions_only
        (API_TOKEN : string) (remote : outbound_call -> remote_result)
        (op : operation) (e : exn) :
  outcome (run API_TOKEN remote op) = inl e ->
  exists st detail,
    e = HTTPException st detail
    /\ ((st = 400 /\ outbound API_TOKEN op = None)
        \/ st = 500
        \/ exists c r,
            outbound API_TOKEN op = Some c
            /\ remote c = Answered r
            /\ status_code r = st
            /\ ~ (200 <= st <= 299)).
Proof.
  destruct (outbound API_TOKEN op) as [c|] eqn:Hout.
  - rewrite (@run_eq API_TOKEN remote op c Hout). unfold outcome at 1. cbn [snd].
    unfold request_outcome.
    destruct (remote c) as [r|err] eqn:Hrem.
    + destruct (is_success (status_code r)) eqn:Hs.
      * destruct (json r) as [err|data].
        -- intros H. injection H as <-. exists 500, (error_str err).
           split; [reflexivity|]. right. now left.
        -- destruct (outcome (formatted op data)) as [x|v] eqn:F;
             [|discriminate].
           destruct x as [st d|err]; intros H; injection H as <-.
           ++ exfalso. clear - F.
              destruct data; destruct op; cbn [formatted] in F;
                try discriminate.
              ** rewrite format_created_dict in F. unfold outcome in F.
                 cbn [snd] in F. destruct (contact_of d0); try discriminate.
                 destruct (company_of d1); discriminate.
              ** rewrite format_updated_dict in F. unfold outcome in F.
                 cbn [snd] in F. destruct (contact_of d0); discriminate.
           ++ exists 500, (error_str err). split; [reflexivity|].
              right. now left.
      * intros H. injection H as <-.
        exists (status_code r), ("Apollo API error: " ++ text r).
        split; [reflexivity|]. right. right. exists c, r.
        split; [reflexivity|]. split; [exact Hrem|]. split; [reflexivity|].
        unfold is_success in Hs. intros [H1 H2].
        apply Z.leb_le in H1, H2. rewrite H1, H2 in Hs. discriminate.
    + intros H. injection H as <-. exists 500, (error_str err).
      split; [reflexivity|]. right. now left.
  - rewrite run_rejected by assumption. intros H. injection H as <-.
    exists 400, "No fields to update". split; [reflexivity|]. now left.
Qed.

(** X11. A create or an update returns a payload only when the remote
    answered its call with a 2xx status and a JSON object, and every payload
    it returns has [success] set to true. *)
Theorem operations_succeed_on_objects_only
        (API_TOKEN : string) (remote : outbound_call -> remote_result)
        (op : operation) (payload : value) :
  outcome (run API_TOKEN remote op) = inr payload ->
  field "success" payload = Some (Bool true)
  /\ exists c r d,
      calls (run API_TOKEN remote op) = [c]
      /\ remote c = Answered r
      /\ 200 <= status_code r <= 299
      /\ json r = inr (Dict d).
Proof.
  destruct (outbound API_TOKEN op) as [c|] eqn:Hout.
  - rewrite (@run_eq API_TOKEN remote op c Hout). unfold outcome at 1, calls.
    cbn [fst snd]. unfold request_outcome.
    destruct (remote c) as [r|err] eqn:Hrem; [|discriminate].
    destruct (is_success (status_code r)) eqn:Hs; [|discriminate].
    destruct (json r) as [err|data] eqn:Hjs; [discriminate|].
    destruct (outcome (formatted op data)) as [x|v] eqn:F.
    + intros H. now apply reraise_raises in H.
    + intros H. injection H as <-.
      apply formatted_success in F. destruct F as [[d ->] Hsucc].
      split; [exact Hsucc|]. exists c, r, d.
      repeat split; try reflexivity; try assumption;
        unfold is_success in Hs; apply andb_prop in Hs; destruct Hs as [H1 H2];
        now apply Z.leb_le.
  - rewrite run_rejected by assumption. discriminate.
Qed.

Lemma invalid_email_raises_http_exception :
  outcome (run "key" invalid_email (Create jane))
  = inl (HTTPException 422 ("Apollo API error: " ++ invalid_email_text))
  /\ exists st detail,
      HTTPException 422 ("Apollo API error: " ++ invalid_email_text)
      = HTTPException st detail
      /\ ((st = 400 /\ outbound "key" (Create jane) = None)
          \/ st = 500
          \/ exists c r,
              outbound "key" (Create jane) = Some c
              /\ invalid_email c = Answered r
              /\ status_code r = st
              /\ ~ (200 <= st <= 299)).
Proof.
  split; [reflexivity|].
  apply (@operations_raise_http_exceptions_only
           "key" invalid_email (Create jane)
           (HTTPException 422 ("Apollo API error: " ++ invalid_email_text))).
  reflexivity.
Defined.

Lemma jane_succeeds_on_an_object :
  outcome (run "key" jane_created (Create jane))
  = inr (created jane_contact None_)
  /\ field "success" (created jane_contact None_) = Some (Bool true)
  /\ exists c r d,
      calls (run "key" jane_created (Create jane)) = [c]
      /\ jane_created c = Answered r
      /\ 200 <= status_code r <= 299
      /\ json r = inr (Dict d).
Proof.
  split; [reflexivity|].
  apply (@operations_succeed_on_objects_only
           "key" jane_created (Create jane) (created jane_contact None_)).
  reflexivity.
Defined.

(** ** The fields of an update and of a create *)

Lemma update_body_eq (request : UpdateContactRequest.t) :
  update_body request
  = ((if present (UpdateContactRequest.email request)
      then [("email", of_opt (UpdateContactRequest.email request))] else [])
     ++ (if present (UpdateContactRequest.title request)
         then [("title", of_opt (UpdateContactRequest.title request))]
         else [])
     ++ (if present (UpdateContactRequest.phone request)
         then [("direct_phone", of_opt (UpdateContactRequest.phone request))]
         else [])
     ++ (if present (UpdateContactRequest.linkedin_url request)
         then [("linkedin_url",
                of_opt (UpdateContactRequest.linkedin_url request))]
         else []))%list.
Proof.
  destruct request as [i e t p l]. unfold update_body.
  cbn [UpdateContactRequest.email UpdateContactRequest.title
       UpdateContactRequest.phone UpdateContactRequest.linkedin_url].
  destruct (present e), (present t), (present p), (present l); reflexivity.
Qed.

Lemma update_body_keys (request : UpdateContactRequest.t) :
  keys (update_body request) = sent_fields request.
Proof.
  rewrite update_body_eq. unfold sent_fields, keys.
  destruct (present (UpdateContactRequest.email request)),
    (present (UpdateContactRequest.title request)),
    (present (UpdateContactRequest.phone request)),
    (present (UpdateContactRequest.linkedin_url request)); reflexivity.
Qed.

Lemma sent_fields_NoDup (request : UpdateContactRequest.t) :
  NoDup (sent_fields request).
Proof.
  unfold sent_fields.
  destruct (present (UpdateContactRequest.email request)),
    (present (UpdateContactRequest.title request)),
    (present (UpdateContactRequest.phone request)),
    (present (UpdateContactRequest.linkedin_url request));
    cbn [app]; repeat constructor; cbn [In]; intuition discriminate.
Qed.

(** X12. The outbound body of an update holds one key per optional field
    set to a non-empty string, in the order email, title, direct_phone,
    linkedin_url and each once, and every success response of the update
    lists exactly those outbound keys, in that order, as updated_fields. *)
Theorem update_reports_sent_fields
        (API_TOKEN : string) (remote : outbound_call -> remote_result)
        (request : UpdateContactRequest.t) (payload : value) :
  outcome (update_contact API_TOKEN remote request) = inr payload ->
  keys (update_body request) = sent_fields request
  /\ NoDup (sent_fields request)
  /\ call_json (update_call API_TOKEN request)
     = Some (Dict (update_body request))
  /\ field "updated_fields" payload
     = Some (List_ (map Str (sent_fields request))).
Proof.
  intros Hout.
  split; [apply update_body_keys|]. split; [apply sent_fields_NoDup|].
  split; [reflexivity|].
  destruct (update_body request) as [|kv body] eqn:E.
  - rewrite update_contact_rejects in Hout by assumption. discriminate.
  - rewrite update_contact_eq in Hout by congruence.
    unfold outcome at 1 in Hout. cbn [snd] in Hout.
    destruct (request_outcome _) as [e|data].
    + now apply reraise_raises in Hout.
    + destruct (outcome (format_updated _ data)) as [e|v] eqn:F.
      * now apply reraise_raises in Hout.
      * injection Hout as <-. apply format_updated_fields in F.
        rewrite F, update_body_keys. reflexivity.
Qed.

Lemma phone_only_sent_fields :
  outcome (update_contact "key" updated phone_only)
  = inr (Dict [("success", Bool true);
               ("contact_id", Str "123");
               ("updated_fields", List_ [Str "direct_phone"]);
               ("raw_response", Dict [("id", Str "123")])])
  /\ keys (update_body phone_only) = sent_fields phone_only
  /\ NoDup (sent_fields phone_only)
  /\ call_json (update_call "key" phone_only)
     = Some (Dict (update_body phone_only))
  /\ field "updated_fields"
           (Dict [("success", Bool true);
                  ("contact_id", Str "123");
                  ("updated_fields", List_ [Str "direct_phone"]);
                  ("raw_response", Dict [("id", Str "123")])])
     = Some (List_ (map Str (sent_fields phone_only))).
Proof.
  split; [reflexivity|].
  apply (@update_reports_sent_fields "key" updated phone_only). reflexivity.
Defined.

Lemma create_query_params_fill_blanks (request : CreateContactRequest.t) :
  create_query_params (fill_blanks request) = create_query_params request.
Proof.
  destruct request as [e f l t c p]. unfold create_query_params, fill_blanks.
  cbn [CreateContactRequest.email CreateContactRequest.first_name
       CreateContactRequest.last_name CreateContactRequest.title
       CreateContactRequest.company CreateContactRequest.phone].
  destruct f as [[|? ?]|], l as [[|? ?]|], t as [[|? ?]|], c as [[|? ?]|],
    p as [[|? ?]|]; reflexivity.
Qed.

(** X13. A create treats an optional field given as null as it treats one
    given as the empty string or left to its default: replacing every null
    of a request by the empty string changes neither the query parameters
    nor anything else the create does. *)
Theorem create_null_fields_as_blank
        (API_TOKEN : string) (remote : outbound_call -> remote_result)
        (request : CreateContactRequest.t) :
  create_query_params request = create_query_params (fill_blanks request)
  /\ create_contact API_TOKEN remote request
     = create_contact API_TOKEN remote (fill_blanks request).
Proof.
  split; [symmetry; apply create_query_params_fill_blanks|].
  unfold create_contact. cbv zeta.
  rewrite create_query_params_fill_blanks. reflexivity.
Qed.

(** ** The status check, case by case *)

Lemma check_status_eq
      (API_TOKEN : string) (remote : outbound_call -> remote_result) :
  check_status API_TOKEN remote
  = ([status_call API_TOKEN],
     inr (status_payload (remote (status_call API_TOKEN)))).
Proof.
  unfold check_status, check_status_try, send. fold (status_call API_TOKEN).
  unfold bind, try_except, lift, ret, raise, status_payload, error_payload.
  destruct (remote (status_call API_TOKEN)) as [r|e]; [|reflexivity].
  destruct (status_code r =? 200); [|reflexivity].
  destruct (json r) as [e|body]; [reflexivity|].
  destruct body; reflexivity.
Qed.

(** X14. When the health endpoint answers with any status other than 200,
    another 2xx included, the status check reports "error" with that status
    and is_logged_in false, and does not look at the body. *)
Theorem check_status_not_200
        (API_TOKEN : string) (remote : outbound_call -> remote_result)
        (r : response) :
  remote (status_call API_TOKEN) = Answered r ->
  status_code r <> 200 ->
  check_status API_TOKEN remote
  = ([status_call API_TOKEN],
     inr (Dict [("apollo_status", Str "error");
                ("status_code", Int (status_code r));
                ("is_logged_in", Bool false)])).
Proof.
  intros Hrem Hst. rewrite check_status_eq, Hrem. unfold status_payload.
  destruct (Z.eqb_spec (status_code r) 200); [contradiction|reflexivity].
Qed.

Lemma check_status_204 :
  204 <> 200
  /\ check_status "key" created_204
     = ([status_call "key"],
        inr (Dict [("apollo_status", Str "error");
                   ("status_code", Int 204);
                   ("is_logged_in", Bool false)])).
Proof.
  split; [lia|].
  apply (@check_status_not_200
           "key" created_204
           (Response 204 ""
                     (inl (Error "JSONDecodeError"
                                 "Expecting value: line 1 column 1 (char 0)"))));
    [reflexivity | cbn; lia].
Defined.

(** X15. When the health endpoint answers 200 with a JSON object, the
    status check reports "connected", the status 200, and as is_logged_in
    whatever value the object holds under that key, unchecked, or false
    when it holds none. *)
Theorem check_status_connected
        (API_TOKEN : string) (remote : outbound_call -> remote_result)
        (r : response) (d : list (string * value)) :
  remote (status_call API_TOKEN) = Answered r ->
  status_code r = 200 ->
  json r = inr (Dict d) ->
  check_status API_TOKEN remote
  = ([status_call API_TOKEN],
     inr (Dict [("apollo_status", Str "connected");
                ("status_code", Int 200);
                ("is_logged_in",
                 match lookup "is_logged_in" d with
                 | Some v => v
                 | None => Bool false
                 end)])).
Proof.
  intros Hrem Hst Hjs. rewrite check_status_eq, Hrem. unfold status_payload.
  rewrite Hjs, Hst. reflexivity.
Qed.

Lemma check_status_logged_in :
  check_status "key" logged_in
  = ([status_call "key"],
     inr (Dict [("apollo_status", Str "connected");
                ("status_code", Int 200);
                ("is_logged_in", Bool true)])).
Proof.
  apply (@check_status_connected
           "key" logged_in
           (Response 200 ("{" ++ quoted "is_logged_in" ++ ": true}")
                     (inr (Dict [("is_logged_in", Bool true)])))
           [("is_logged_in", Bool true)]);
    reflexivity.
Defined.

(** X16. The status check reports "connected" exactly when the health
    endpoint answered 200 with a body that decodes to a JSON object; in
    every other case it reports "error". *)
Theorem check_status_connected_iff
        (API_TOKEN : string) (remote : outbound_call -> remote_result) :
  exists payload,
    outcome (check_status API_TOKEN remote) = inr payload
    /\ (field "apollo_status" payload = Some (Str "connected")
        <-> exists r d,
             remote (status_call API_TOKEN) = Answered r
             /\ status_code r = 200
             /\ json r = inr (Dict d))
    /\ (field "apollo_status" payload <> Some (Str "connected")
        -> field "apollo_status" payload = Some (Str "error")).
Proof.
  rewrite check_status_eq. eexists. split; [reflexivity|].
  unfold status_payload, error_payload.
  destruct (remote (status_call API_TOKEN)) as [r|e] eqn:Hrem.
  - destruct (Z.eqb_spec (status_code r) 200) as [E|E].
    + destruct (json r) as [e|body] eqn:Ej.
      * split; [split|reflexivity].
        -- discriminate.
        -- intros [r' [d [H1 [_ H3]]]]. congruence.
      * destruct body;
          try (split; [split|reflexivity];
               [discriminate
               |intros [r' [d' [H1 [_ H3]]]]; congruence]).
        split; [split|intros H; now destruct H].
        -- intros _. exists r, d. repeat split; assumption.
        -- reflexivity.
    + split; [split|reflexivity].
      * discriminate.
      * intros [r' [d [H1 [H2 _]]]]. congruence.
  - split; [split|reflexivity].
    + discriminate.
    + intros [r [d [H1 _]]]. discriminate.
Qed.

(** ** The helper and its methods *)



(** ** The schemas *)

Lemma lookup_other {V} (k f : string) (v : V) (d : list (string * V)) :
  (k =? f)%string = false -> lookup f ((k, v) :: d) = lookup f d.
Proof. intros H. cbn [lookup]. now rewrite H. Qed.

(** X18. The create schema accepts no keyword arguments in which email is
    missing or is not a string, whatever else is given. *)
Theorem email_must_be_a_string (d : list (string * value)) :
  (forall s, lookup "email" d <> Some (Str s)) ->
  CreateContactRequest.validate d = None.
Proof.
  intros H. unfold CreateContactRequest.validate, required_str.
  destruct (reserved d); [reflexivity|].
  destruct (lookup "email" d) as [[| | | |s| |]|]; try reflexivity.
  now destruct (H s).
Qed.

Lemma numeric_email_is_refused :
  CreateContactRequest.validate [("email", Int 7); ("title", Str "CTO")]
  = None.
Proof.
  apply (@email_must_be_a_string [("email", Int 7); ("title", Str "CTO")]).
  discriminate.
Defined.

(** X19. The update schema accepts no keyword arguments in which
    contact_id is missing or is not a string, whatever else is given. *)
Theorem contact_id_must_be_a_string (d : list (string * value)) :
  (forall s, lookup "contact_id" d <> Some (Str s)) ->
  UpdateContactRequest.validate d = None.
Proof.
  intros H. unfold UpdateContactRequest.validate, required_str.
  destruct (reserved d); [reflexivity|].
  destruct (lookup "contact_id" d) as [[| | | |s| |]|]; try reflexivity.
  now destruct (H s).
Qed.

Lemma missing_contact_id_is_refused :
  UpdateContactRequest.validate [("phone", Str "555-0100")] = None.
Proof.
  apply (@contact_id_must_be_a_string [("phone", Str "555-0100")]).
  discriminate.
Defined.

(** X20. Both schemas ignore a keyword argument that names none of their
    fields and is not the reserved [__pydantic_self__]: with or without it
    they accept the same arguments and build the same request. *)
Theorem unknown_keys_are_ignored
        (k : string) (v : value) (d : list (string * value)) :
  existsb (String.eqb k)
          ("__pydantic_self__" :: create_fields ++ update_fields) = false ->
  CreateContactRequest.validate ((k, v) :: d)
  = CreateContactRequest.validate d
  /\ UpdateContactRequest.validate ((k, v) :: d)
     = UpdateContactRequest.validate d.
Proof.
  intros H. cbn [existsb create_fields update_fields app] in H.
  repeat (apply orb_false_elim in H; destruct H as [? H]).
  split.
  - unfold CreateContactRequest.validate, reserved, required_str,
      optional_str.
    rewrite !lookup_other by assumption. reflexivity.
  - unfold UpdateContactRequest.validate, reserved, required_str,
      optional_str.
    rewrite !lookup_other by assumption. reflexivity.
Qed.

Lemma source_key_is_ignored :
  CreateContactRequest.validate
    [("source", Str "n8n"); ("email", Str "j@x.com")]
  = CreateContactRequest.validate [("email", Str "j@x.com")]
  /\ UpdateContactRequest.validate
       [("source", Str "n8n"); ("email", Str "j@x.com")]
     = UpdateContactRequest.validate [("email", Str "j@x.com")].
Proof.
  apply (@unknown_keys_are_ignored
           "source" (Str "n8n") [("email", Str "j@x.com")]).
  reflexivity.
Defined.

(** ** The webhook *)

Lemma bind_ret {E A B} (a : A) (k : A -> M E B) : bind (ret a) k = k a.
Proof. unfold bind, ret. destruct (k a). reflexivity. Qed.

Section Webhook.
Variable API_TOKEN : string.
Variable remote : outbound_call -> remote_result.
Variable construction_error : string -> value -> error.

Lemma webhook_create (data : list (string * value)) :
  lookup "action" data = Some (Str "create_contact") ->
  n8n_webhook API_TOKEN remote construction_error data
  = (request <- construct construction_error "CreateContactRequest"
                          CreateContactRequest.validate (params_of data);;
     create_contact API_TOKEN remote request).
Proof.
  intros H. unfold n8n_webhook. cbv zeta. rewrite H. reflexivity.
Qed.

Lemma webhook_update (data : list (string * value)) :
  lookup "action" data = Some (Str "update_contact") ->
  n8n_webhook API_TOKEN remote construction_error data
  = (request <- construct construction_error "UpdateContactRequest"
                          UpdateContactRequest.validate (params_of data);;
     update_contact API_TOKEN remote request).
Proof.
  intros H. unfold n8n_webhook. cbv zeta. rewrite H. reflexivity.
Qed.

Lemma webhook_status (data : list (string * value)) :
  lookup "action" data = Some (Str "status") ->
  n8n_webhook API_TOKEN remote construction_error data
  = check_status API_TOKEN remote.
Proof.
  intros H. unfold n8n_webhook. cbv zeta. rewrite H. reflexivity.
Qed.

Lemma webhook_other (data : list (string * value)) :
  lookup "action" data <> Some (Str "create_contact") ->
  lookup "action" data <> Some (Str "update_contact") ->
  lookup "action" data <> Some (Str "status") ->
  n8n_webhook API_TOKEN remote construction_error data
  = ([], inr unknown_action).
Proof.
  intros H1 H2 H3. unfold n8n_webhook. cbv zeta.
  destruct (lookup "action" data) as [action|]; [|reflexivity].
  destruct action; try reflexivity.
  unfold is_str.
  destruct (String.eqb_spec s "create_contact") as [->|_]; [congruence|].
  destruct (String.eqb_spec s "update_contact") as [->|_]; [congruence|].
  destruct (String.eqb_spec s "status") as [->|_]; [congruence|].
  reflexivity.
Qed.

Lemma construct_cases {T} (model : string)
      (validate : list (string * value) -> option T) (params : value) :
  (exists d r, params = Dict d /\ validate d = Some r
               /\ construct construction_error model validate params = ret r)
  \/ ((forall d, params = Dict d -> validate d = None)
      /\ construct construction_error model validate params
         = raise (Exception (construction_error model params))).
Proof.
  destruct params as [| | | | | |d];
    try (right; split; [discriminate|reflexivity]).
  destruct (validate d) as [r|] eqn:E.
  - left. exists d, r. cbn [construct]. rewrite E. now repeat split.
  - right. split.
    + intros d' H. now injection H as <-.
    + cbn [construct]. now rewrite E.
Qed.

(** The calls the webhook can issue. *)
Lemma webhook_calls (data : list (string * value)) :
  calls (n8n_webhook API_TOKEN remote construction_error data) = []
  \/ calls (n8n_webhook API_TOKEN remote construction_error data)
     = [status_call API_TOKEN]
  \/ (exists request,
         calls (n8n_webhook API_TOKEN remote construction_error data)
         = [create_call API_TOKEN request])
  \/ (exists request,
         calls (n8n_webhook API_TOKEN remote construction_error data)
         = [update_call API_TOKEN request]).
Proof.
  destruct (lookup "action" data) as [action|] eqn:Ha.
  2:{ left. rewrite webhook_other by (rewrite Ha; discriminate).
      reflexivity. }
  destruct action as [| | | |s| |];
    try (left; rewrite webhook_other by (rewrite Ha; discriminate);
         reflexivity).
  destruct (String.eqb_spec s "create_contact") as [->|N1].
  { rewrite (webhook_create data Ha).
    destruct (construct_cases "CreateContactRequest"
                              CreateContactRequest.validate (params_of data))
      as [[d [r [_ [_ ->]]]]|[_ ->]].
    - rewrite bind_ret. right. right. left. exists r.
      rewrite create_contact_eq. reflexivity.
    - left. reflexivity. }
  destruct (String.eqb_spec s "update_contact") as [->|N2].
  { rewrite (webhook_update data Ha).
    destruct (construct_cases "UpdateContactRequest"
                              UpdateContactRequest.validate (params_of data))
      as [[d [r [_ [_ ->]]]]|[_ ->]].
    - rewrite bind_ret.
      destruct (update_body r) as [|kv body] eqn:E.
      + left. rewrite update_contact_rejects by assumption. reflexivity.
      + right. right. right. exists r.
        rewrite update_contact_eq by congruence. reflexivity.
    - left. reflexivity. }
  destruct (String.eqb_spec s "status") as [->|N3].
  { right. left. rewrite (webhook_status data Ha), check_status_eq.
    reflexivity. }
  left. rewrite webhook_other by (rewrite Ha; congruence). reflexivity.
Qed.

End Webhook.

(** X21. A webhook request with action "status" does exactly what the
    status check does: the same call and the same payload. *)
Theorem webhook_status_is_check_status
        (API_TOKEN : string) (remote : outbound_call -> remote_result)
        (construction_error : string -> value -> error)
        (data : list (string * value)) :
  lookup "action" data = Some (Str "status") ->
  n8n_webhook API_TOKEN remote construction_error data
  = check_status API_TOKEN remote.
Proof. apply webhook_status. Qed.

Lemma webhook_status_logged_in :
  n8n_webhook "key" logged_in no_construction_error [("action", Str "status")]
  = check_status "key" logged_in.
Proof.
  apply (@webhook_status_is_check_status
           "key" logged_in no_construction_error [("action", Str "status")]).
  reflexivity.
Defined.

(** X22. A webhook request with action "create_contact" whose params are
    an object the create schema accepts does exactly what a create of the
    request built from them does. *)
Theorem webhook_create_delegates
        (API_TOKEN : string) (remote : outbound_call -> remote_result)
        (construction_error : string -> value -> error)
        (data d : list (string * value)) (request : CreateContactRequest.t) :
  lookup "action" data = Some (Str "create_contact") ->
  lookup "params" data = Some (Dict d) ->
  CreateContactRequest.validate d = Some request ->
  n8n_webhook API_TOKEN remote construction_error data
  = create_contact API_TOKEN remote request.
Proof.
  intros Ha Hp Hv. rewrite webhook_create by assumption.
  unfold params_of. rewrite Hp. cbn [construct]. rewrite Hv.
  apply bind_ret.
Qed.

Lemma webhook_creates_jane :
  n8n_webhook "key" jane_created no_construction_error
              [("action", Str "create_contact");
               ("params", Dict [("email", Str "j@x.com");
                                ("first_name", Str "Jane");
                                ("last_name", Str "Doe")])]
  = create_contact "key" jane_created jane.
Proof.
  apply (@webhook_create_delegates
           "key" jane_created no_construction_error
           [("action", Str "create_contact");
            ("params", Dict [("email", Str "j@x.com");
                             ("first_name", Str "Jane");
                             ("last_name", Str "Doe")])]
           [("email", Str "j@x.com"); ("first_name", Str "Jane");
            ("last_name", Str "Doe")] jane);
    reflexivity.
Defined.

(** X23. A webhook request with action "update_contact" whose params are
    an object the update schema accepts does exactly what an update of the
    request built from them does. *)
Theorem webhook_update_delegates
        (API_TOKEN : string) (remote : outbound_call -> remote_result)
        (construction_error : string -> value -> error)
        (data d : list (string * value)) (request : UpdateContactRequest.t) :
  lookup "action" data = Some (Str "update_contact") ->
  lookup "params" data = Some (Dict d) ->
  UpdateContactRequest.validate d = Some request ->
  n8n_webhook API_TOKEN remote construction_error data
  = update_contact API_TOKEN remote request.
Proof.
  intros Ha Hp Hv. rewrite webhook_update by assumption.
  unfold params_of. rewrite Hp. cbn [construct]. rewrite Hv.
  apply bind_ret.
Qed.

Lemma webhook_updates_phone :
  n8n_webhook "key" updated no_construction_error
              [("action", Str "update_contact");
               ("params", Dict [("contact_id", Str "123");
                                ("phone", Str "555-0100")])]
  = update_contact "key" updated phone_only.
Proof.
  apply (@webhook_update_delegates
           "key" updated no_construction_error
           [("action", Str "update_contact");
            ("params", Dict [("contact_id", Str "123");
                             ("phone", Str "555-0100")])]
           [("contact_id", Str "123"); ("phone", Str "555-0100")] phone_only);
    reflexivity.
Defined.

(** X24. A webhook request with action "create_contact" or
    "update_contact" whose params are not an object the schema of that
    action accepts (params missing count as an empty object) issues no
    outbound call and raises the construction error, which is not an
    [HTTPException]. *)
Theorem webhook_bad_params_raise_without_call
        (API_TOKEN : string) (remote : outbound_call -> remote_result)
        (construction_error : string -> value -> error)
        (data : list (string * value)) :
  (lookup "action" data = Some (Str "create_contact")
   /\ forall d, params_of data = Dict d -> CreateContactRequest.validate d = None)
  \/ (lookup "action" data = Some (Str "update_contact")
      /\ forall d, params_of data = Dict d
                   -> UpdateContactRequest.validate d = None) ->
  exists model,
    n8n_webhook API_TOKEN remote construction_error data
    = ([], inl (Exception (construction_error model (params_of data)))).
Proof.
  intros [[Ha Hv]|[Ha Hv]].
  - exists "CreateContactRequest". rewrite webhook_create by assumption.
    destruct (construct_cases construction_error "CreateContactRequest"
                              CreateContactRequest.validate (params_of data))
      as [[d [r [Hp [Hr _]]]]|[_ ->]].
    + rewrite (Hv d Hp) in Hr. discriminate.
    + reflexivity.
  - exists "UpdateContactRequest". rewrite webhook_update by assumption.
    destruct (construct_cases construction_error "UpdateContactRequest"
                              UpdateContactRequest.validate (params_of data))
      as [[d [r [Hp [Hr _]]]]|[_ ->]].
    + rewrite (Hv d Hp) in Hr. discriminate.
    + reflexivity.
Qed.

Lemma webhook_create_without_params :
  exists model,
    n8n_webhook "key" jane_created no_construction_error
                [("action", Str "create_contact")]
    = ([], inl (Exception (no_construction_error model (Dict [])))).
Proof.
  apply (@webhook_bad_params_raise_without_call
           "key" jane_created no_construction_error
           [("action", Str "create_contact")]).
  left. split; [reflexivity|].
  intros d H. injection H as <-. reflexivity.
Defined.

(** X25. Whatever the request and whatever the remote does, the webhook,
    and with it each operation it dispatches to, issues at most one
    outbound call. *)
Theorem webhook_issues_at_most_one_call
        (API_TOKEN : string) (remote : outbound_call -> remote_result)
        (construction_error : string -> value -> error)
        (data : list (string * value)) :
  (List.length (calls (n8n_webhook API_TOKEN remote construction_error data))
   <= 1)%nat.
Proof.
  destruct (webhook_calls API_TOKEN remote construction_error data)
    as [H|[H|[[r H]|[r H]]]]; rewrite H; cbn; lia.
Qed.

(** X26. Every outbound call the webhook issues, whichever operation it
    dispatches to, carries the API key in its x-api-key header, goes to a
    URL under the base URL, and has a timeout of 10 or 30 seconds. *)
Theorem webhook_calls_carry_the_key
        (API_TOKEN : string) (remote : outbound_call -> remote_result)
        (construction_error : string -> value -> error)
        (data : list (string * value)) (c : outbound_call) :
  In c (calls (n8n_webhook API_TOKEN remote construction_error data)) ->
  lookup "x-api-key" (call_headers c) = Some API_TOKEN
  /\ prefix BASE_URL (call_url c) = true
  /\ (call_timeout c = 10 \/ call_timeout c = 30).
Proof.
  destruct (webhook_calls API_TOKEN remote construction_error data)
    as [H|[H|[[r H]|[r H]]]]; rewrite H; cbn [In];
    [intros [] | intros [<-|[]] ..].
  - split; [reflexivity|]. split; [reflexivity|]. now left.
  - split; [reflexivity|]. split; [|now right].
    unfold create_call. cbn [call_url]. unfold build_url.
    destruct (create_query_params r); [reflexivity|].
    destruct (query_string_params _); reflexivity.
  - split; [reflexivity|]. split; [reflexivity|]. now right.
Qed.

Lemma webhook_status_call_carries_the_key :
  In (status_call "key")
     (calls (n8n_webhook "key" logged_in no_construction_error
                         [("action", Str "status")]))
  /\ lookup "x-api-key" (call_headers (status_call "key")) = Some "key"
  /\ prefix BASE_URL (call_url (status_call "key")) = true
  /\ (call_timeout (status_call "key") = 10
      \/ call_timeout (status_call "key") = 30).
Proof.
  assert (H : In (status_call "key")
                 (calls (n8n_webhook "key" logged_in no_construction_error
                                     [("action", Str "status")])))
    by (left; reflexivity).
  split; [exact H|].
  exact (@webhook_calls_carry_the_key
           "key" logged_in no_construction_error
           [("action", Str "status")] (status_call "key") H).
Defined.
